(** * traffic.py: a signalised intersection with car and bike lanes

    A shallow embedding of [src/traffic.py] and the properties of its
    queue-update rule, its fixed-cycle traffic light and its tick loop.

    Conventions of the embedding.
    - Python integers are [Z]; Python floats are IEEE binary64 values
      ([PrimFloat.float]), so [int(3600 * SIM_LENGTH)] is computed as Python
      computes it.
    - A Python exception is a value [Raise e] of the type [result].
    - [np.random.poisson] is an oracle: the sample drawn for the lane at
      position [k] of [self.lanes] during [loop(i)] is [draws i k].  Its
      distribution and numpy's own argument checks are not part of the model;
      [business] is only stored.
    - [config.json] is read as a [ConfigFile]: missing, not decodable, or a
      decoded object whose present keys hold values of the expected kinds.
    - The module globals that [JsonReader.parse] rebinds are passed around as
      a record [Globals]. *)

From Stdlib Require Import ZArith String Ascii List Bool Lia DecimalString.
From Stdlib Require Import Floats.PrimFloat Floats.SpecFloat Floats.FloatOps.
From Stdlib Require Import Uint63.
Import ListNotations.
Open Scope Z_scope.

(** ** Exceptions *)

Inductive exn : Type :=
| ZeroDivisionError
| ValueError
| OverflowError.

Inductive result (A : Type) : Type :=
| Ok (a : A)
| Raise (e : exn).

Arguments Ok {A} a.
Arguments Raise {A} e.

Definition bind {A B : Type} (r : result A) (k : A -> result B) : result B :=
  match r with
  | Ok a => k a
  | Raise e => Raise e
  end.

Notation "x <- r ;; k" := (bind r (fun x => k))
  (at level 61, r at next level, right associativity).

(** ** Numbers *)

(** [a % b] on Python integers: floor remainder, [ZeroDivisionError] when
    [b] is zero.  [Z.modulo] is the floor remainder too. *)
Definition py_mod (a b : Z) : result Z :=
  if b =? 0 then Raise ZeroDivisionError else Ok (a mod b).

(** [float(z)] for an integer that fits 63 bits. *)
Definition float_of_Z (z : Z) : float :=
  if z <? 0 then PrimFloat.opp (PrimFloat.of_uint63 (Uint63.of_Z (- z)))
  else PrimFloat.of_uint63 (Uint63.of_Z z).

(** [int(f)]: truncation toward zero; [ValueError] on a NaN and
    [OverflowError] on an infinity. *)
Definition int_of_float (f : float) : result Z :=
  match Prim2SF f with
  | S754_zero _ => Ok 0
  | S754_finite s m e =>
      let v := if 0 <=? e then Z.pos m * 2 ^ e else Z.pos m / 2 ^ (- e) in
      Ok (if s then - v else v)
  | S754_infinity _ => Raise OverflowError
  | S754_nan => Raise ValueError
  end.

(** [str(n)] for a natural number. *)
Definition str (n : nat) : string := NilZero.string_of_uint (Nat.to_uint n).

(** ** Module globals (lines 17-27) *)

Record Globals : Type := mkGlobals {
  GREEN_CARS : Z;
  GREEN_BIKES : Z;
  RED_TIME_ALL : Z;
  CYCLE_LENGTH : Z;
  SIM_LENGTH : float
}.

(** The literal [0.1], as the binary64 value Python reads it. *)
Definition one_tenth : float := 0x1.999999999999ap-4%float.

Definition default_globals : Globals :=
  {| GREEN_CARS := 30;
     GREEN_BIKES := 10;
     RED_TIME_ALL := 10;
     CYCLE_LENGTH := 30 + 10 + 2 * 10;
     SIM_LENGTH := one_tenth |}.

(** ** LaneType (lines 29-33) *)

Module LaneType.
Definition CAR : Z := 1.
Definition BIKE : Z := 2.
End LaneType.

(** ** Lane (lines 36-58) *)

Record Lane : Type := mkLane {
  green_light : bool;
  vehicle_num : Z;
  lane_type : Z;
  business : float
}.

(** [Lane.__init__] *)
Definition Lane_init (lane_type : Z) (business : float) : Lane :=
  {| green_light := false;
     vehicle_num := 0;
     lane_type := lane_type;
     business := business |}.

Definition set_green_light (status : bool) (self : Lane) : Lane :=
  {| green_light := status;
     vehicle_num := vehicle_num self;
     lane_type := lane_type self;
     business := business self |}.

Definition set_vehicle_num (n : Z) (self : Lane) : Lane :=
  {| green_light := green_light self;
     vehicle_num := n;
     lane_type := lane_type self;
     business := business self |}.

(** [Lane.update_vehicle_number]; [arrivals] is the Poisson sample. *)
Definition update_vehicle_number (arrivals : Z) (self : Lane) : Lane :=
  let self := set_vehicle_num (vehicle_num self + arrivals) self in
  if green_light self && (0 <? vehicle_num self) then
    if (lane_type self =? LaneType.BIKE) && (vehicle_num self =? 1) then
      set_vehicle_num (vehicle_num self - 1) self
    else
      set_vehicle_num (vehicle_num self - lane_type self) self
  else self.

(** ** JsonReader.parse (lines 61-110) *)

(** One entry of ["lanes"]: its ["type"] and ["business"] values. *)
Record LaneDesc : Type := mkLaneDesc {
  ld_type : string;
  ld_business : float
}.

(** The decoded object: each key is absent ([None]) or present. *)
Record Config : Type := mkConfig {
  j_GREEN_CARS : option Z;
  j_GREEN_BIKES : option Z;
  j_RED_TIME_ALL : option Z;
  j_SIM_LENGTH : option float;
  j_lanes : option (list LaneDesc)
}.

Inductive ConfigFile : Type :=
| Missing                (* path.exists(CONFIG_PATH) is false *)
| Malformed              (* json.load raises JSONDecodeError *)
| Parsed (j : Config).

Definition get_or {A : Type} (o : option A) (d : A) : A :=
  match o with
  | Some a => a
  | None => d
  end.

(** The body of the [for lane in j["lanes"]] loop. *)
Definition lane_of_desc (lane : LaneDesc) : Lane :=
  let lane_type :=
    if String.eqb (ld_type lane) "car" then LaneType.CAR else LaneType.BIKE in
  Lane_init lane_type (ld_business lane).

(** [parse] returns the lane list and the globals as it leaves them. *)
Definition parse (file : ConfigFile) (g : Globals) : list Lane * Globals :=
  match file with
  | Missing => ([], g)
  | Malformed => ([], g)
  | Parsed j =>
      let green_cars := get_or (j_GREEN_CARS j) (GREEN_CARS g) in
      let green_bikes := get_or (j_GREEN_BIKES j) (GREEN_BIKES g) in
      let red_time_all := get_or (j_RED_TIME_ALL j) (RED_TIME_ALL g) in
      let sim_length := get_or (j_SIM_LENGTH j) (SIM_LENGTH g) in
      let g' :=
        {| GREEN_CARS := green_cars;
           GREEN_BIKES := green_bikes;
           RED_TIME_ALL := red_time_all;
           CYCLE_LENGTH := green_cars + green_bikes + 2 * red_time_all;
           SIM_LENGTH := sim_length |} in
      match j_lanes j with
      | None => ([], g')
      | Some descs => (map lane_of_desc descs, g')
      end
  end.

(** ** The results table *)

(** A value stored in a row: a light (bool) or a queue length (int). *)
Inductive cell : Type :=
| CBool (b : bool)
| CInt (z : Z).

(** [pd.DataFrame(columns=...)]: the column labels and the rows, each with
    its index label. *)
Record DataFrame : Type := mkDataFrame {
  df_columns : list string;
  df_rows : list (Z * list cell)
}.

(** [df.loc[index] = value] for a list [value]: pandas raises [ValueError]
    when the frame has no column or when the list has not one entry per
    column; otherwise the row labelled [index] is overwritten, or appended
    when there is none. *)
Definition loc_setitem (index : Z) (value : list cell) (df : DataFrame)
  : result DataFrame :=
  match df_columns df with
  | [] => Raise ValueError
  | _ :: _ =>
      if negb (length value =? length (df_columns df))%nat then Raise ValueError
      else
        let rows := df_rows df in
        Ok {| df_columns := df_columns df;
              df_rows :=
                if existsb (fun r => fst r =? index) rows
                then map (fun r => if fst r =? index then (index, value) else r) rows
                else rows ++ [(index, value)] |}
  end.

(** ** Main (lines 113-226) *)

Record Main : Type := mkMain {
  lanes : list Lane;
  columns : list string;
  traffic_data : DataFrame
}.

Definition lane_count : Z := 4.

Definition is_bike (a : Lane) : bool := lane_type a =? LaneType.BIKE.
Definition is_car (a : Lane) : bool := lane_type a =? LaneType.CAR.

(** [self.bikes] and [self.cars] are lists of references to the Lane objects
    of [self.lanes], built once; a lane never changes its type, so what they
    show at any time is the filter of the current [self.lanes]. *)
Definition bikes (self : Main) : list Lane := filter is_bike (lanes self).
Definition cars (self : Main) : list Lane := filter is_car (lanes self).

(** The fallback lane of index [i] (lines 148-149). *)
Definition default_lane (i : Z) : Lane :=
  let lane_type :=
    if PrimFloat.leb (PrimFloat.div (float_of_Z lane_count) (float_of_Z 2))
                     (float_of_Z i)
    then LaneType.BIKE else LaneType.CAR in
  Lane_init lane_type (PrimFloat.mul (float_of_Z (lane_count - i)) one_tenth).

(** [range(n)] *)
Definition range (n : Z) : list Z := map Z.of_nat (seq 0 (Z.to_nat n)).

(** Lines 116-155 of [Main.__init__]: everything before the tick loop. *)
Definition Main_setup (file : ConfigFile) : Globals * Main :=
  let (parsed, g) := parse file default_globals in
  let (lanes, columns) :=
    match parsed with
    | _ :: _ =>
        let bikes := filter is_bike parsed in
        let cars := filter is_car parsed in
        (parsed,
         ["bikelight"%string]
           ++ map (fun i => ("Bikes " ++ str (i + 1))%string) (seq 0 (length bikes))
           ++ ["carlight"%string]
           ++ map (fun i => ("Cars " ++ str (i + 1))%string) (seq 0 (length cars)))
    | [] =>
        (map default_lane (range lane_count),
         ["Bike lanes"; "Bikes 1"; "Bikes 2";
          "Car lanes"; "Cars 1"; "Cars 2"]%string)
    end in
  (g, {| lanes := lanes;
         columns := columns;
         traffic_data := {| df_columns := columns; df_rows := [] |} |}).

(** [Main.set_lanes], on the lane list. *)
Definition set_lanes (lane_type' : Z) (status : bool) (lanes : list Lane)
  : list Lane :=
  map (fun lane =>
         if lane_type lane =? lane_type' then set_green_light status lane
         else lane) lanes.

(** Lines 182-190 of [Main.loop]: the light changes of the tick [ticks]. *)
Definition switch_lights (g : Globals) (ticks : Z) (lanes : list Lane)
  : list Lane :=
  if ticks =? 0 then
    set_lanes LaneType.BIKE true (set_lanes LaneType.CAR false lanes)
  else if ticks =? GREEN_BIKES g then
    set_lanes LaneType.BIKE false lanes
  else if ticks =? GREEN_BIKES g + RED_TIME_ALL g then
    set_lanes LaneType.CAR true lanes
  else if ticks =? GREEN_BIKES g + RED_TIME_ALL g + GREEN_CARS g then
    set_lanes LaneType.CAR false lanes
  else lanes.

(** Lines 179-190 of [Main.loop]: the traffic light at [iter_count]. *)
Definition loop_lights (g : Globals) (iter_count : Z) (lanes : list Lane)
  : result (list Lane) :=
  ticks <- py_mod iter_count (CYCLE_LENGTH g) ;;
  Ok (switch_lights g ticks lanes).

(** Lines 193-194 of [Main.loop]: every lane updates its queue; [draw k] is
    the sample of the lane at position [k]. *)
Fixpoint update_lanes (draw : nat -> Z) (k : nat) (lanes : list Lane)
  : list Lane :=
  match lanes with
  | [] => []
  | lane :: rest =>
      update_vehicle_number (draw k) lane :: update_lanes draw (S k) rest
  end.

(** The list [final] that [Main.add_row] builds. *)
Definition row_of (self : Main) : list cell :=
  let final := [] in
  let final :=
    match bikes self with
    | bike0 :: _ => final ++ [CBool (green_light bike0)]
    | [] => final
    end in
  let final := final ++ map (fun bike => CInt (vehicle_num bike)) (bikes self) in
  let final :=
    match cars self with
    | car0 :: _ => final ++ [CBool (green_light car0)]
    | [] => final
    end in
  final ++ map (fun car => CInt (vehicle_num car)) (cars self).

(** [Main.add_row] *)
Definition add_row (index : Z) (self : Main) : result Main :=
  df <- loc_setitem index (row_of self) (traffic_data self) ;;
  Ok {| lanes := lanes self; columns := columns self; traffic_data := df |}.

(** [Main.loop] *)
Definition loop (g : Globals) (draws : Z -> nat -> Z) (iter_count : Z)
  (self : Main) : result Main :=
  lit <- loop_lights g iter_count (lanes self) ;;
  let updated := update_lanes (draws iter_count) 0 lit in
  add_row iter_count
    {| lanes := updated;
       columns := columns self;
       traffic_data := traffic_data self |}.

(** [for i in range(n): self.loop(i)]: the state after the first [n] ticks. *)
Fixpoint run (g : Globals) (draws : Z -> nat -> Z) (n : nat) (self : Main)
  : result Main :=
  match n with
  | O => Ok self
  | S k => self' <- run g draws k self ;; loop g draws (Z.of_nat k) self'
  end.

(** [Main.__init__] up to the call of [draw_graph], which only displays
    [traffic_data]. *)
Definition Main_init (file : ConfigFile) (draws : Z -> nat -> Z)
  : result (Globals * Main) :=
  let (g, self) := Main_setup file in
  loop_count <- int_of_float (PrimFloat.mul (float_of_Z 3600) (SIM_LENGTH g)) ;;
  self' <- run g draws (Z.to_nat loop_count) self ;;
  Ok (g, self').

(** ** Predicates and sample inputs *)

(** A lane of one of the two classes. *)
Definition lane_ok (l : Lane) : Prop :=
  lane_type l = LaneType.CAR \/ lane_type l = LaneType.BIKE.

(** A lane of one of the two classes whose queue is not negative. *)
Definition queue_ok (l : Lane) : Prop :=
  lane_ok l /\ 0 <= vehicle_num l.

(** What a change of lights leaves alone. *)
Definition same_but_light (l l' : Lane) : Prop :=
  lane_type l' = lane_type l /\ business l' = business l /\
  vehicle_num l' = vehicle_num l.

(** What a queue update leaves alone. *)
Definition same_but_queue (l l' : Lane) : Prop :=
  lane_type l' = lane_type l /\ business l' = business l /\
  green_light l' = green_light l.

(** The sampler that never draws an arrival. *)
Definition zero_draws : Z -> nat -> Z := fun _ _ => 0.

(** A green bike lane with an empty queue. *)
Definition green_bike_lane : Lane :=
  {| green_light := true; vehicle_num := 0;
     lane_type := LaneType.BIKE; business := one_tenth |}.

(** A green bike lane with one waiting bike. *)
Definition green_bike_lane_1 : Lane :=
  {| green_light := true; vehicle_num := 1;
     lane_type := LaneType.BIKE; business := one_tenth |}.

(** The bike light of the timetable at the offset [p] of the cycle. *)
Definition bike_phase (g : Globals) (p : Z) : bool :=
  p <? GREEN_BIKES g.

(** The car light of the timetable at the offset [p] of the cycle. *)
Definition car_phase (g : Globals) (p : Z) : bool :=
  (GREEN_BIKES g + RED_TIME_ALL g <=? p) &&
  (p <? GREEN_BIKES g + RED_TIME_ALL g + GREEN_CARS g).

(** The lane shows the light the timetable gives its class at [p]. *)
Definition lights_follow (g : Globals) (p : Z) (l : Lane) : Prop :=
  (lane_type l = LaneType.BIKE -> green_light l = bike_phase g p) /\
  (lane_type l = LaneType.CAR -> green_light l = car_phase g p).

(** The offset [p] lies in one of the two all-red phases. *)
Definition all_red_phase (g : Globals) (p : Z) : Prop :=
  GREEN_BIKES g <= p < GREEN_BIKES g + RED_TIME_ALL g \/
  GREEN_BIKES g + RED_TIME_ALL g + GREEN_CARS g <= p < CYCLE_LENGTH g.

(** The lights of the bike lanes and of the car lanes, in lane order. *)
Definition bike_lights (self : Main) : list bool :=
  map green_light (bikes self).
Definition car_lights (self : Main) : list bool :=
  map green_light (cars self).

(** The number of entries of the row [add_row] builds. *)
Definition row_length (self : Main) : nat :=
  let nb := length (bikes self) in
  let nc := length (cars self) in
  ((if (nb =? 0)%nat then 0 else 1) + nb +
   (if (nc =? 0)%nat then 0 else 1) + nc)%nat.

(** [{"lanes": [{"type": "car", "business": 0.5}]}] *)
Definition cars_only_config : Config :=
  {| j_GREEN_CARS := None; j_GREEN_BIKES := None; j_RED_TIME_ALL := None;
     j_SIM_LENGTH := None;
     j_lanes := Some [ {| ld_type := "car"; ld_business := 0.5%float |} ] |}.

(** [{"GREEN_CARS": 0, "GREEN_BIKES": 0, "RED_TIME_ALL": 0}] *)
Definition zero_cycle_config : Config :=
  {| j_GREEN_CARS := Some 0; j_GREEN_BIKES := Some 0;
     j_RED_TIME_ALL := Some 0; j_SIM_LENGTH := None; j_lanes := None |}.

(** [{"GREEN_CARS": -5,
      "lanes": [{"type": "car", "business": -1.0},
                {"type": "bike", "business": 0.0}]}] *)
Definition unchecked_config : Config :=
  {| j_GREEN_CARS := Some (-5); j_GREEN_BIKES := None;
     j_RED_TIME_ALL := None; j_SIM_LENGTH := None;
     j_lanes := Some [ {| ld_type := "car"; ld_business := (-1)%float |};
                       {| ld_type := "bike"; ld_business := 0%float |} ] |}.

(** The state after the first [n] ticks of the run that [file] starts. *)
Definition run_of (file : ConfigFile) (draws : Z -> nat -> Z) (n : nat)
  : result Main :=
  run (fst (Main_setup file)) draws n (snd (Main_setup file)).

(** The light the timetable gives a lane of class [ty] at the offset [p]. *)
Definition light_of (g : Globals) (p : Z) (ty : Z) : bool :=
  if ty =? LaneType.BIKE then bike_phase g p else car_phase g p.

(** A lane as [Lane.__init__] leaves it, of one of the two classes. *)
Definition fresh_lane (l : Lane) : Prop :=
  green_light l = false /\ vehicle_num l = 0 /\ lane_ok l.

(** The vehicles that leave during one queue update with [a] arrivals. *)
Definition departed (a : Z) (l : Lane) : Z :=
  vehicle_num l + a - vehicle_num (update_vehicle_number a l).

(** A green car lane with five waiting cars. *)
Definition green_car_lane_5 : Lane :=
  {| green_light := true; vehicle_num := 5;
     lane_type := LaneType.CAR; business := one_tenth |}.


(** [{"GREEN_BIKES": 0}] *)
Definition no_bike_green_config : Config :=
  {| j_GREEN_CARS := None; j_GREEN_BIKES := Some 0; j_RED_TIME_ALL := None;
     j_SIM_LENGTH := None; j_lanes := None |}.

(** [{"RED_TIME_ALL": 0}] *)
Definition no_all_red_config : Config :=
  {| j_GREEN_CARS := None; j_GREEN_BIKES := None; j_RED_TIME_ALL := Some 0;
     j_SIM_LENGTH := None; j_lanes := None |}.

(** Case analysis on every integer test in sight. *)
Ltac split_tests :=
  repeat match goal with
         | |- context [Z.eqb ?a ?b] => destruct (Z.eqb_spec a b)
         | |- context [Z.ltb ?a ?b] => destruct (Z.ltb_spec a b)
         | |- context [Z.leb ?a ?b] => destruct (Z.leb_spec a b)
         | H : context [Z.eqb ?a ?b] |- _ => destruct (Z.eqb_spec a b)
         | H : context [Z.ltb ?a ?b] |- _ => destruct (Z.ltb_spec a b)
         | H : context [Z.leb ?a ?b] |- _ => destruct (Z.leb_spec a b)
         end.

(** ** The queue update *)

Lemma update_vehicle_number_frame (a : Z) (l : Lane) :
  same_but_queue l (update_vehicle_number a l).
Proof.
  unfold same_but_queue, update_vehicle_number; simpl.
  destruct (green_light l && (0 <? vehicle_num l + a)); simpl; auto.
  destruct ((lane_type l =? LaneType.BIKE) && (vehicle_num l + a =? 1));
    simpl; auto.
Qed.

Lemma update_vehicle_number_nonneg (a : Z) (l : Lane) :
  lane_ok l -> 0 <= vehicle_num l -> 0 <= a ->
  0 <= vehicle_num (update_vehicle_number a l).
Proof.
  intros Hty Hq Ha.
  unfold update_vehicle_number; simpl.
  destruct (green_light l); simpl; [| lia].
  destruct (Z.ltb_spec 0 (vehicle_num l + a)); simpl; [| lia].
  destruct (Z.eqb_spec (lane_type l) LaneType.BIKE) as [Hb | Hb]; simpl.
  - destruct (Z.eqb_spec (vehicle_num l + a) 1); simpl; [lia |].
    rewrite Hb; unfold LaneType.BIKE; lia.
  - destruct Hty as [Hc | Hc]; [| contradiction].
    rewrite Hc; unfold LaneType.CAR; lia.
Qed.

Lemma update_vehicle_number_queue_ok (a : Z) (l : Lane) :
  0 <= a -> queue_ok l -> queue_ok (update_vehicle_number a l).
Proof.
  intros Ha [Hty Hq]; split.
  - destruct (update_vehicle_number_frame a l) as (Ht & _).
    unfold lane_ok in *; rewrite Ht; exact Hty.
  - now apply update_vehicle_number_nonneg.
Qed.

Lemma update_lanes_frame (draw : nat -> Z) (ls : list Lane) :
  forall k, Forall2 same_but_queue ls (update_lanes draw k ls).
Proof.
  induction ls as [| l ls IH]; intros k; simpl; constructor.
  - apply update_vehicle_number_frame.
  - apply IH.
Qed.

Lemma update_lanes_queue_ok (draw : nat -> Z) (ls : list Lane) :
  (forall k, 0 <= draw k) ->
  forall k, Forall queue_ok ls -> Forall queue_ok (update_lanes draw k ls).
Proof.
  intros Hd; induction ls as [| l ls IH]; intros k H; simpl.
  - constructor.
  - inversion H; subst; constructor.
    + now apply update_vehicle_number_queue_ok.
    + now apply IH.
Qed.

(** ** The traffic light *)

Lemma set_lanes_spec (lt : Z) (st : bool) (ls : list Lane) :
  Forall2 (fun l l' =>
             same_but_light l l' /\
             green_light l' = if lane_type l =? lt then st else green_light l)
          ls (set_lanes lt st ls).
Proof.
  unfold set_lanes, same_but_light.
  induction ls as [| l ls IH]; simpl; constructor; [| exact IH].
  destruct (lane_type l =? lt); simpl; auto.
Qed.

Lemma set_lanes_In (lt : Z) (st : bool) (ls : list Lane) (l' : Lane) :
  In l' (set_lanes lt st ls) ->
  exists l, In l ls /\ same_but_light l l' /\
            green_light l' = if lane_type l =? lt then st else green_light l.
Proof.
  unfold set_lanes; intros H; apply in_map_iff in H.
  destruct H as (l & <- & Hin); exists l; split; [exact Hin |].
  unfold same_but_light; destruct (lane_type l =? lt); simpl; auto.
Qed.

Lemma set_lanes_queue_ok (lt : Z) (st : bool) (ls : list Lane) :
  Forall queue_ok ls -> Forall queue_ok (set_lanes lt st ls).
Proof.
  intros H; apply Forall_forall; intros l' Hin.
  apply set_lanes_In in Hin; destruct Hin as (l & Hin & (Ht & _ & Hq) & _).
  rewrite Forall_forall in H; destruct (H l Hin) as [Hty Hn].
  unfold queue_ok, lane_ok in *; rewrite Ht, Hq; auto.
Qed.

Lemma switch_lights_queue_ok (g : Globals) (ticks : Z) (ls : list Lane) :
  Forall queue_ok ls -> Forall queue_ok (switch_lights g ticks ls).
Proof.
  intros H; unfold switch_lights.
  repeat match goal with
         | |- context [if ?b then _ else _] => destruct b
         end;
    auto using set_lanes_queue_ok.
Qed.

Lemma set_lanes_types (lt : Z) (st : bool) (ls : list Lane) :
  map lane_type (set_lanes lt st ls) = map lane_type ls.
Proof.
  unfold set_lanes; rewrite map_map; apply map_ext.
  intros l; destruct (lane_type l =? lt); reflexivity.
Qed.

Lemma switch_lights_types (g : Globals) (ticks : Z) (ls : list Lane) :
  map lane_type (switch_lights g ticks ls) = map lane_type ls.
Proof.
  unfold switch_lights.
  repeat match goal with
         | |- context [if ?b then _ else _] => destruct b
         end;
    rewrite ?set_lanes_types; reflexivity.
Qed.

Lemma update_lanes_types (draw : nat -> Z) (ls : list Lane) :
  forall k, map lane_type (update_lanes draw k ls) = map lane_type ls.
Proof.
  induction ls as [| l ls IH]; intros k; simpl; [reflexivity |].
  rewrite IH; f_equal; apply update_vehicle_number_frame.
Qed.

Lemma set_lanes_business (lt : Z) (st : bool) (ls : list Lane) :
  map business (set_lanes lt st ls) = map business ls.
Proof.
  unfold set_lanes; rewrite map_map; apply map_ext.
  intros l; destruct (lane_type l =? lt); reflexivity.
Qed.

Lemma switch_lights_business (g : Globals) (ticks : Z) (ls : list Lane) :
  map business (switch_lights g ticks ls) = map business ls.
Proof.
  unfold switch_lights.
  repeat match goal with
         | |- context [if ?b then _ else _] => destruct b
         end;
    rewrite ?set_lanes_business; reflexivity.
Qed.

Lemma update_lanes_business (draw : nat -> Z) (ls : list Lane) :
  forall k, map business (update_lanes draw k ls) = map business ls.
Proof.
  induction ls as [| l ls IH]; intros k; simpl; [reflexivity |].
  rewrite IH; f_equal; apply update_vehicle_number_frame.
Qed.

(** ** One tick *)

Lemma loop_inv (g : Globals) (draws : Z -> nat -> Z) (i : Z) (self self' : Main) :
  loop g draws i self = Ok self' ->
  CYCLE_LENGTH g <> 0 /\
  lanes self' =
    update_lanes (draws i) 0
      (switch_lights g (i mod CYCLE_LENGTH g) (lanes self)) /\
  columns self' = columns self /\
  loc_setitem i
    (row_of {| lanes := lanes self'; columns := columns self;
               traffic_data := traffic_data self |})
    (traffic_data self) = Ok (traffic_data self').
Proof.
  unfold loop, loop_lights, py_mod.
  destruct (Z.eqb_spec (CYCLE_LENGTH g) 0) as [E | E]; simpl; [discriminate |].
  unfold add_row; simpl.
  match goal with
  | |- context [loc_setitem ?i ?r ?d] => destruct (loc_setitem i r d) eqn:Hset
  end; simpl; [| discriminate].
  intros H; injection H as <-; simpl; auto.
Qed.

Lemma loop_queue_ok (g : Globals) (draws : Z -> nat -> Z) (i : Z)
  (self self' : Main) :
  (forall k, 0 <= draws i k) ->
  Forall queue_ok (lanes self) ->
  loop g draws i self = Ok self' ->
  Forall queue_ok (lanes self').
Proof.
  intros Hd Hq H; apply loop_inv in H; destruct H as (_ & -> & _).
  apply update_lanes_queue_ok; [exact Hd |].
  now apply switch_lights_queue_ok.
Qed.

Lemma run_queue_ok (g : Globals) (draws : Z -> nat -> Z) (self0 : Main) :
  (forall t k, 0 <= draws t k) ->
  Forall queue_ok (lanes self0) ->
  forall n self, run g draws n self0 = Ok self -> Forall queue_ok (lanes self).
Proof.
  intros Hd H0; induction n as [| n IH]; intros self H; simpl in H.
  - injection H as <-; exact H0.
  - destruct (run g draws n self0) as [self1 | e]; simpl in H; [| discriminate].
    eapply loop_queue_ok; [apply Hd | apply IH; reflexivity | exact H].
Qed.

Lemma run_raise_mono (g : Globals) (draws : Z -> nat -> Z) (self0 : Main)
  (e : exn) (n : nat) :
  run g draws n self0 = Raise e ->
  forall m, (n <= m)%nat -> run g draws m self0 = Raise e.
Proof.
  intros H m Hle; induction Hle as [| m Hle IH]; [exact H |].
  simpl; rewrite IH; reflexivity.
Qed.

(** ** What setup builds *)

Lemma lane_of_desc_queue_ok (d : LaneDesc) : queue_ok (lane_of_desc d).
Proof.
  unfold queue_ok, lane_ok, lane_of_desc; simpl.
  destruct (String.eqb (ld_type d) "car"); simpl; split; auto; lia.
Qed.

Lemma parse_queue_ok (file : ConfigFile) (g : Globals) :
  Forall queue_ok (fst (parse file g)).
Proof.
  destruct file as [| | j]; simpl; try constructor.
  destruct (j_lanes j) as [descs |]; simpl; [| constructor].
  apply Forall_forall; intros l Hin; apply in_map_iff in Hin.
  destruct Hin as (d & <- & _); apply lane_of_desc_queue_ok.
Qed.

Lemma parse_cycle (file : ConfigFile) (g : Globals) :
  CYCLE_LENGTH g = GREEN_CARS g + GREEN_BIKES g + 2 * RED_TIME_ALL g ->
  let g' := snd (parse file g) in
  CYCLE_LENGTH g' = GREEN_CARS g' + GREEN_BIKES g' + 2 * RED_TIME_ALL g'.
Proof.
  intros H; destruct file as [| | j]; simpl; auto.
  destruct (j_lanes j); reflexivity.
Qed.

Lemma default_lanes_eq :
  map default_lane (range lane_count) =
  [ Lane_init LaneType.CAR (PrimFloat.mul (float_of_Z 4) one_tenth);
    Lane_init LaneType.CAR (PrimFloat.mul (float_of_Z 3) one_tenth);
    Lane_init LaneType.BIKE (PrimFloat.mul (float_of_Z 2) one_tenth);
    Lane_init LaneType.BIKE (PrimFloat.mul (float_of_Z 1) one_tenth) ].
Proof. vm_compute; reflexivity. Qed.

Lemma Main_setup_globals (file : ConfigFile) :
  fst (Main_setup file) = snd (parse file default_globals).
Proof.
  unfold Main_setup; destruct (parse file default_globals) as [parsed g].
  destruct parsed; reflexivity.
Qed.

Lemma Main_setup_cycle (file : ConfigFile) :
  let g := fst (Main_setup file) in
  CYCLE_LENGTH g = GREEN_CARS g + GREEN_BIKES g + 2 * RED_TIME_ALL g.
Proof.
  rewrite Main_setup_globals; apply parse_cycle; reflexivity.
Qed.

Lemma Main_setup_queue_ok (file : ConfigFile) :
  Forall queue_ok (lanes (snd (Main_setup file))).
Proof.
  unfold Main_setup.
  pose proof (parse_queue_ok file default_globals) as H.
  destruct (parse file default_globals) as [parsed g]; simpl in H.
  destruct parsed as [| l ls]; [| exact H].
  change (Forall queue_ok (map default_lane (range lane_count))).
  rewrite default_lanes_eq.
  repeat constructor; unfold lane_ok; simpl; auto; lia.
Qed.

(** ** The timetable *)

Lemma mod_succ (t c : Z) :
  0 <= t -> 0 < c ->
  (t + 1) mod c = if t mod c + 1 =? c then 0 else t mod c + 1.
Proof.
  intros Ht Hc.
  pose proof (Z.div_mod t c ltac:(lia)) as Hdm.
  pose proof (Z.mod_pos_bound t c Hc) as Hb.
  destruct (Z.eqb_spec (t mod c + 1) c) as [E | E]; symmetry.
  - apply (Z.mod_unique_pos _ _ (t / c + 1)); lia.
  - apply (Z.mod_unique_pos _ _ (t / c)); lia.
Qed.

(** The lights of a cycle whose three durations are strictly positive. *)
Section Timetable.

Variable g : Globals.
Hypothesis bikes_positive : 0 < GREEN_BIKES g.
Hypothesis red_positive : 0 < RED_TIME_ALL g.
Hypothesis cars_positive : 0 < GREEN_CARS g.
Hypothesis cycle_is_sum :
  CYCLE_LENGTH g = GREEN_CARS g + GREEN_BIKES g + 2 * RED_TIME_ALL g.

(** The lights after the changes of offset 0, whatever they were. *)
Lemma switch_lights_start (ls : list Lane) :
  Forall (lights_follow g 0) (switch_lights g 0 ls).
Proof.
  unfold switch_lights; simpl.
  apply Forall_forall; intros l2 H2.
  apply set_lanes_In in H2; destruct H2 as (l1 & H1 & (T2 & _) & G2).
  apply set_lanes_In in H1; destruct H1 as (l & _ & (T1 & _) & G1).
  unfold lights_follow, bike_phase, car_phase.
  rewrite G2, G1, T2, T1; unfold LaneType.BIKE, LaneType.CAR.
  split; intros E; rewrite E; simpl; split_tests; simpl; try reflexivity; lia.
Qed.

(** The lights at offset [p + 1] from lights that follow the timetable
    at [p]. *)
Lemma switch_lights_next (p : Z) (ls : list Lane) :
  0 <= p ->
  Forall (lights_follow g p) ls ->
  Forall (lights_follow g (p + 1)) (switch_lights g (p + 1) ls).
Proof.
  intros Hp H; rewrite Forall_forall in H.
  apply Forall_forall; intros l' Hin; unfold switch_lights in Hin.
  assert (Hcases :
            exists l, In l ls /\ lane_type l' = lane_type l /\
              green_light l' =
                if p + 1 =? GREEN_BIKES g then
                  if lane_type l =? LaneType.BIKE then false else green_light l
                else if p + 1 =? GREEN_BIKES g + RED_TIME_ALL g then
                  if lane_type l =? LaneType.CAR then true else green_light l
                else if p + 1 =? GREEN_BIKES g + RED_TIME_ALL g + GREEN_CARS g
                then
                  if lane_type l =? LaneType.CAR then false else green_light l
                else green_light l).
  { destruct (Z.eqb_spec (p + 1) 0); [lia |].
    destruct (Z.eqb_spec (p + 1) (GREEN_BIKES g)).
    { apply set_lanes_In in Hin; destruct Hin as (l & ? & (? & _) & ?); eauto. }
    destruct (Z.eqb_spec (p + 1) (GREEN_BIKES g + RED_TIME_ALL g)).
    { apply set_lanes_In in Hin; destruct Hin as (l & ? & (? & _) & ?); eauto. }
    destruct (Z.eqb_spec (p + 1)
                (GREEN_BIKES g + RED_TIME_ALL g + GREEN_CARS g)).
    { apply set_lanes_In in Hin; destruct Hin as (l & ? & (? & _) & ?); eauto. }
    exists l'; auto. }
  destruct Hcases as (l & Hl & T & G).
  destruct (H l Hl) as [Fb Fc].
  pose proof bikes_positive; pose proof red_positive; pose proof cars_positive.
  unfold lights_follow, bike_phase, car_phase in *.
  rewrite G, T; unfold LaneType.BIKE, LaneType.CAR in *.
  split; intros E; rewrite E; simpl;
    [specialize (Fb E); rewrite Fb | specialize (Fc E); rewrite Fc];
    split_tests; simpl; try reflexivity; try lia.
Qed.

(** A queue update leaves the lights where the timetable put them. *)
Lemma update_lanes_lights_follow (p : Z) (draw : nat -> Z) (ls : list Lane) :
  forall k, Forall (lights_follow g p) ls ->
            Forall (lights_follow g p) (update_lanes draw k ls).
Proof.
  induction ls as [| l ls IH]; intros k H; simpl; [constructor |].
  inversion H as [| ? ? Hl Hls]; subst; constructor; [| now apply IH].
  destruct (update_vehicle_number_frame (draw k) l) as (T & _ & G).
  unfold lights_follow in *; rewrite T, G; exact Hl.
Qed.

(** After the tick [t], every lane shows the light of the timetable at
    [t mod CYCLE_LENGTH]. *)
Lemma run_lights_follow (draws : Z -> nat -> Z) (self0 : Main) :
  forall t self,
    run g draws (S t) self0 = Ok self ->
    Forall (lights_follow g (Z.of_nat t mod CYCLE_LENGTH g)) (lanes self).
Proof.
  pose proof bikes_positive as Hb; pose proof red_positive as Hr;
    pose proof cars_positive as Hc.
  induction t as [| t IH]; intros self H.
  - simpl in H; apply loop_inv in H; destruct H as (_ & -> & _).
    rewrite Z.mod_0_l by (rewrite cycle_is_sum; lia).
    apply update_lanes_lights_follow, switch_lights_start.
  - change (run g draws (S (S t)) self0)
      with (self' <- run g draws (S t) self0 ;;
            loop g draws (Z.of_nat (S t)) self') in H.
    destruct (run g draws (S t) self0) as [self1 | e]; unfold bind in H;
      [| discriminate].
    specialize (IH self1 eq_refl).
    apply loop_inv in H; destruct H as (_ & -> & _).
    apply update_lanes_lights_follow.
    rewrite Nat2Z.inj_succ; unfold Z.succ.
    rewrite mod_succ by (rewrite ?cycle_is_sum; lia).
    pose proof (Z.mod_pos_bound (Z.of_nat t) (CYCLE_LENGTH g)
                  ltac:(rewrite cycle_is_sum; lia)).
    destruct (Z.eqb_spec (Z.of_nat t mod CYCLE_LENGTH g + 1) (CYCLE_LENGTH g)).
    + apply switch_lights_start.
    + apply switch_lights_next; [lia | exact IH].
Qed.

End Timetable.

(** ** The observation row and the results table *)

Lemma filter_type_length (t : Z) (ls : list Lane) :
  length (filter (fun a => lane_type a =? t) ls) =
  length (filter (fun x => x =? t) (map lane_type ls)).
Proof.
  induction ls as [| l ls IH]; simpl; [reflexivity |].
  destruct (lane_type l =? t); simpl; rewrite IH; reflexivity.
Qed.

Lemma row_of_length (self : Main) : length (row_of self) = row_length self.
Proof.
  unfold row_of, row_length.
  destruct (bikes self) as [| b bs]; destruct (cars self) as [| c cs]; simpl;
    repeat (rewrite ?length_app, ?length_map; simpl); lia.
Qed.

Lemma row_length_types (a b : Main) :
  map lane_type (lanes a) = map lane_type (lanes b) ->
  row_length a = row_length b.
Proof.
  intros H; unfold row_length, bikes, cars, is_bike, is_car.
  rewrite !filter_type_length, H; reflexivity.
Qed.

Lemma existsb_fresh (i : Z) (rows : list (Z * list cell)) :
  ~ In i (map fst rows) -> existsb (fun r => fst r =? i) rows = false.
Proof.
  induction rows as [| r rows IH]; simpl; intros H; [reflexivity |].
  destruct (Z.eqb_spec (fst r) i); simpl; [tauto | apply IH; tauto].
Qed.

(** A tick succeeds when the cycle is not empty and the table has one column
    per entry of the row; the new row is appended under a fresh label. *)
Lemma loop_ok (g : Globals) (draws : Z -> nat -> Z) (i : Z) (self : Main) :
  CYCLE_LENGTH g <> 0 ->
  df_columns (traffic_data self) <> [] ->
  length (df_columns (traffic_data self)) = row_length self ->
  ~ In i (map fst (df_rows (traffic_data self))) ->
  exists self',
    loop g draws i self = Ok self' /\
    map lane_type (lanes self') = map lane_type (lanes self) /\
    df_columns (traffic_data self') = df_columns (traffic_data self) /\
    map fst (df_rows (traffic_data self')) =
      map fst (df_rows (traffic_data self)) ++ [i].
Proof.
  intros Hc Hne Hlen Hfresh.
  unfold loop, loop_lights, py_mod.
  destruct (Z.eqb_spec (CYCLE_LENGTH g) 0) as [E | _]; [contradiction |].
  cbn [bind]; unfold add_row, loc_setitem; cbn [traffic_data].
  set (lanes' := update_lanes _ _ _).
  assert (Hty : map lane_type lanes' = map lane_type (lanes self)).
  { unfold lanes'; rewrite update_lanes_types, switch_lights_types.
    reflexivity. }
  set (self1 := {| lanes := lanes'; columns := columns self;
                   traffic_data := traffic_data self |}).
  assert (Hrow : length (row_of self1) = length (df_columns (traffic_data self))).
  { rewrite row_of_length, Hlen; apply row_length_types; exact Hty. }
  destruct (df_columns (traffic_data self)) as [| c cs]; [contradiction |].
  rewrite Hrow, Nat.eqb_refl; cbn [negb bind].
  rewrite (existsb_fresh _ _ Hfresh).
  eexists; split; [reflexivity |]; cbn [lanes traffic_data df_columns df_rows].
  repeat split; [exact Hty | rewrite map_app; reflexivity].
Qed.

(** A tick fails when the row and the table differ in width. *)
Lemma loop_mismatch (g : Globals) (draws : Z -> nat -> Z) (i : Z) (self : Main) :
  CYCLE_LENGTH g <> 0 ->
  length (df_columns (traffic_data self)) <> row_length self ->
  loop g draws i self = Raise ValueError.
Proof.
  intros Hc Hlen.
  unfold loop, loop_lights, py_mod.
  destruct (Z.eqb_spec (CYCLE_LENGTH g) 0) as [E | _]; [contradiction |].
  cbn [bind]; unfold add_row, loc_setitem; cbn [traffic_data].
  set (lanes' := update_lanes _ _ _).
  assert (Hty : map lane_type lanes' = map lane_type (lanes self)).
  { unfold lanes'; rewrite update_lanes_types, switch_lights_types.
    reflexivity. }
  set (self1 := {| lanes := lanes'; columns := columns self;
                   traffic_data := traffic_data self |}).
  destruct (df_columns (traffic_data self)) as [| c cs]; [reflexivity |].
  rewrite row_of_length, (row_length_types self1 self Hty).
  destruct (Nat.eqb_spec (row_length self) (length (c :: cs))) as [E | E];
    [congruence | reflexivity].
Qed.

(** A tick fails when the cycle is empty. *)
Lemma loop_zero_cycle (g : Globals) (draws : Z -> nat -> Z) (i : Z) (self : Main) :
  CYCLE_LENGTH g = 0 -> loop g draws i self = Raise ZeroDivisionError.
Proof.
  intros E; unfold loop, loop_lights, py_mod; rewrite E; reflexivity.
Qed.

(** The whole run succeeds from an empty table of the right width, and
    leaves one row per tick, labelled with the tick. *)
Lemma run_ok (g : Globals) (draws : Z -> nat -> Z) (self0 : Main) :
  CYCLE_LENGTH g <> 0 ->
  df_columns (traffic_data self0) <> [] ->
  length (df_columns (traffic_data self0)) = row_length self0 ->
  df_rows (traffic_data self0) = [] ->
  forall n,
  exists self,
    run g draws n self0 = Ok self /\
    map lane_type (lanes self) = map lane_type (lanes self0) /\
    df_columns (traffic_data self) = df_columns (traffic_data self0) /\
    map fst (df_rows (traffic_data self)) = map Z.of_nat (seq 0 n).
Proof.
  intros Hc Hne Hlen Hrows; induction n as [| n IH].
  - exists self0; simpl; rewrite Hrows; auto.
  - destruct IH as (self1 & Hrun & Hty & Hcols & Hidx).
    destruct (loop_ok g draws (Z.of_nat n) self1 Hc) as (self & Hl & Ty & Co & Ix).
    + rewrite Hcols; exact Hne.
    + rewrite Hcols, Hlen; apply row_length_types; symmetry; exact Hty.
    + rewrite Hidx; intros Hin; apply in_map_iff in Hin.
      destruct Hin as (m & Hm & Hin); apply in_seq in Hin; lia.
    + exists self; cbn [run]; rewrite Hrun; cbn [bind].
      split; [exact Hl |]; split; [congruence |]; split; [congruence |].
      rewrite Ix, Hidx, seq_S, map_app; reflexivity.
Qed.

Lemma loop_count_default :
  int_of_float (PrimFloat.mul (float_of_Z 3600) (SIM_LENGTH default_globals))
  = Ok 360.
Proof. vm_compute; reflexivity. Qed.

Lemma run_frame (g : Globals) (draws : Z -> nat -> Z) (self0 : Main) :
  forall n self,
    run g draws n self0 = Ok self ->
    map lane_type (lanes self) = map lane_type (lanes self0) /\
    map business (lanes self) = map business (lanes self0).
Proof.
  induction n as [| n IH]; intros self H; cbn [run] in H.
  - injection H as <-; auto.
  - destruct (run g draws n self0) as [self1 | e]; unfold bind in H;
      [| discriminate].
    destruct (IH self1 eq_refl) as [T B].
    apply loop_inv in H; destruct H as (_ & -> & _).
    rewrite update_lanes_types, switch_lights_types.
    rewrite update_lanes_business, switch_lights_business; auto.
Qed.

Lemma lane_ok_types (ls ls' : list Lane) :
  map lane_type ls' = map lane_type ls ->
  Forall lane_ok ls -> Forall lane_ok ls'.
Proof.
  revert ls'; induction ls as [| l ls IH]; intros [| l' ls'] E H;
    try discriminate; constructor; simpl in E; injection E as E1 E2;
    inversion H; subst.
  - unfold lane_ok in *; rewrite E1; assumption.
  - now apply IH.
Qed.

Lemma Main_init_unfold (file : ConfigFile) (draws : Z -> nat -> Z) :
  Main_init file draws =
  (loop_count <-
     int_of_float
       (PrimFloat.mul (float_of_Z 3600) (SIM_LENGTH (fst (Main_setup file)))) ;;
   self' <- run_of file draws (Z.to_nat loop_count) ;;
   Ok (fst (Main_setup file), self')).
Proof.
  unfold Main_init, run_of; destruct (Main_setup file); reflexivity.
Qed.

(** ** The claims *)

(** C1. A queue update of a Car or Bike lane with a non-negative queue and a
    non-negative arrival draw, whatever its light, leaves a non-negative
    queue; so a tick keeps every queue non-negative, and so does every run
    that starts from what setup builds. *)
Theorem queue_never_negative (draws : Z -> nat -> Z) (l : Lane) (a : Z) :
  lane_ok l -> 0 <= vehicle_num l -> 0 <= a ->
  (forall t k, 0 <= draws t k) ->
  0 <= vehicle_num (update_vehicle_number a l) /\
  (forall g i self self',
      Forall queue_ok (lanes self) ->
      loop g draws i self = Ok self' ->
      Forall queue_ok (lanes self')) /\
  (forall file n self,
      run_of file draws n = Ok self -> Forall queue_ok (lanes self)).
Proof.
  intros Hty Hq Ha Hd; split; [| split].
  - now apply update_vehicle_number_nonneg.
  - intros g i self self' H0 H.
    eapply loop_queue_ok; [apply Hd | exact H0 | exact H].
  - intros file n self H.
    eapply run_queue_ok; [exact Hd | apply Main_setup_queue_ok | exact H].
Qed.

(** A green Bike lane with one bike and no arrival, under the sampler that
    never draws. *)
Lemma queue_never_negative_witness :
  0 <= vehicle_num (update_vehicle_number 0 green_bike_lane_1).
Proof.
  refine (proj1 (queue_never_negative zero_draws green_bike_lane_1 0 _ _ _ _)).
  - right; reflexivity.
  - simpl; lia.
  - lia.
  - intros t k; unfold zero_draws; lia.
Defined.

(** C2, as amended. A green Bike lane whose queue is 1 once the arrivals of
    the tick are added loses exactly 1 vehicle, not 2: its queue ends at 0,
    the arrivals being counted in that 1; with no arrival a green Bike lane
    with queue 1 ends the tick at queue 0. *)
Theorem bike_floor (l : Lane) (a : Z) :
  lane_type l = LaneType.BIKE -> green_light l = true ->
  vehicle_num l + a = 1 ->
  (vehicle_num l + a) - vehicle_num (update_vehicle_number a l) = 1 /\
  vehicle_num (update_vehicle_number a l) = 0 /\
  0 <= vehicle_num (update_vehicle_number a l).
Proof.
  intros Hb Hg H1; unfold update_vehicle_number; simpl.
  rewrite Hg, Hb, H1; simpl; repeat split; lia.
Qed.

(** The floor rule on a green Bike lane with one bike and no arrival. *)
Lemma bike_floor_witness :
  vehicle_num (update_vehicle_number 0 green_bike_lane_1) = 0.
Proof.
  refine (proj1 (proj2 (bike_floor green_bike_lane_1 0 _ _ _)));
    reflexivity.
Defined.

(** C2, as stated, fails: a green Bike lane with an empty queue and one
    arrival has queue 1 once the arrival is added, loses that one bike and
    ends at 0, which is not 0 plus the one arrival. *)
Lemma bike_floor_counterexample :
  ~ (forall (l : Lane) (a : Z),
        lane_type l = LaneType.BIKE -> green_light l = true ->
        0 <= vehicle_num l -> 0 <= a -> vehicle_num l + a = 1 ->
        (vehicle_num l + a) - vehicle_num (update_vehicle_number a l) = 1 /\
        vehicle_num (update_vehicle_number a l) = 0 + a /\
        0 <= vehicle_num (update_vehicle_number a l)).
Proof.
  intros H.
  destruct (H green_bike_lane 1) as (_ & E & _);
    try reflexivity; try (simpl; lia).
  vm_compute in E; discriminate.
Qed.

(** C3. The tick loop is not total on what configuration parsing produces.
    With the configuration [{"lanes": [{"type": "car", "business": 0.5}]}]
    the table has the columns bikelight, carlight and Cars 1, the row of the
    first tick has only the car light and the car queue, and storing it
    raises ValueError; with three durations of zero and the fallback lanes,
    the first tick raises ZeroDivisionError. *)
Theorem run_raises (draws : Z -> nat -> Z) :
  (columns (snd (Main_setup (Parsed cars_only_config)))
     = ["bikelight"; "carlight"; "Cars 1"]%string /\
   row_length (snd (Main_setup (Parsed cars_only_config))) = 2%nat /\
   run_of (Parsed cars_only_config) draws 1 = Raise ValueError /\
   Main_init (Parsed cars_only_config) draws = Raise ValueError) /\
  (run_of (Parsed zero_cycle_config) draws 1 = Raise ZeroDivisionError /\
   Main_init (Parsed zero_cycle_config) draws = Raise ZeroDivisionError).
Proof.
  assert (H1 : run_of (Parsed cars_only_config) draws 1 = Raise ValueError).
  { unfold run_of; cbn [run bind].
    apply loop_mismatch; vm_compute; intros E; discriminate E. }
  assert (H2 : run_of (Parsed zero_cycle_config) draws 1
               = Raise ZeroDivisionError).
  { unfold run_of; cbn [run bind].
    apply loop_zero_cycle; reflexivity. }
  split; [split; [reflexivity | split; [reflexivity | split; [exact H1 |]]]
         | split; [exact H2 |]];
    rewrite Main_init_unfold.
  - change (SIM_LENGTH (fst (Main_setup (Parsed cars_only_config))))
      with (SIM_LENGTH default_globals).
    rewrite loop_count_default; cbn [bind].
    unfold run_of in *.
    rewrite (run_raise_mono _ _ _ _ _ H1) by (simpl; lia).
    reflexivity.
  - change (SIM_LENGTH (fst (Main_setup (Parsed zero_cycle_config))))
      with (SIM_LENGTH default_globals).
    rewrite loop_count_default; cbn [bind].
    unfold run_of in *.
    rewrite (run_raise_mono _ _ _ _ _ H2) by (simpl; lia).
    reflexivity.
Qed.

(** C4, as amended. Lane construction and configuration parsing check
    nothing: every arrival rate, positive or not, gives a lane that carries
    it, red and with an empty queue, and [parse] returns one such lane per
    descriptor and keeps each supplied duration, negative or not. *)
Theorem construction_unchecked
  (gc gb r : option Z) (sl : option float) (descs : list LaneDesc)
  (g : Globals) (lt : Z) (b : float) :
  Lane_init lt b =
    {| green_light := false; vehicle_num := 0;
       lane_type := lt; business := b |} /\
  map business
    (fst (parse (Parsed (mkConfig gc gb r sl (Some descs))) g))
    = map ld_business descs /\
  length (fst (parse (Parsed (mkConfig gc gb r sl (Some descs))) g))
    = length descs /\
  GREEN_CARS (snd (parse (Parsed (mkConfig gc gb r sl (Some descs))) g))
    = get_or gc (GREEN_CARS g) /\
  GREEN_BIKES (snd (parse (Parsed (mkConfig gc gb r sl (Some descs))) g))
    = get_or gb (GREEN_BIKES g) /\
  RED_TIME_ALL (snd (parse (Parsed (mkConfig gc gb r sl (Some descs))) g))
    = get_or r (RED_TIME_ALL g).
Proof.
  split; [reflexivity |]; simpl.
  rewrite map_map, length_map.
  split; [apply map_ext; intros d; reflexivity |].
  repeat split; reflexivity.
Qed.

(** C4, as stated, fails: parsing a configuration with a negative duration,
    a car lane of arrival rate -1 and a bike lane of arrival rate 0 raises
    nothing and returns both lanes, so not every constructed lane has a
    strictly positive arrival rate. *)
Lemma construction_unchecked_counterexample :
  ~ (forall (file : ConfigFile) (g : Globals) (l : Lane),
        In l (fst (parse file g)) ->
        PrimFloat.ltb 0%float (business l) = true).
Proof.
  intros H.
  specialize (H (Parsed unchecked_config) default_globals
                (Lane_init LaneType.CAR (-1)%float) (or_introl eq_refl)).
  vm_compute in H; discriminate.
Qed.

(** C5. At every tick a run reaches, when the three durations are strictly
    positive, no Car lane and Bike lane are green together, and in both
    all-red phases of the cycle every lane is red. *)
Theorem lights_exclusive (file : ConfigFile) (draws : Z -> nat -> Z)
  (t : nat) (self : Main) :
  0 < GREEN_BIKES (fst (Main_setup file)) ->
  0 < RED_TIME_ALL (fst (Main_setup file)) ->
  0 < GREEN_CARS (fst (Main_setup file)) ->
  run_of file draws (S t) = Ok self ->
  (forall car bike,
      In car (lanes self) -> In bike (lanes self) ->
      lane_type car = LaneType.CAR -> lane_type bike = LaneType.BIKE ->
      ~ (green_light car = true /\ green_light bike = true)) /\
  (all_red_phase (fst (Main_setup file))
     (Z.of_nat t mod CYCLE_LENGTH (fst (Main_setup file))) ->
   forall l, In l (lanes self) -> green_light l = false).
Proof.
  intros Hb Hr Hc Hrun.
  pose proof (Main_setup_cycle file) as Hcy; cbv zeta in Hcy.
  pose proof (run_lights_follow _ Hb Hr Hc Hcy draws _ t self Hrun) as HF.
  assert (Hok : Forall lane_ok (lanes self)).
  { destruct (run_frame _ _ _ _ _ Hrun) as [T _].
    apply (lane_ok_types _ _ T).
    eapply Forall_impl; [| apply Main_setup_queue_ok].
    intros a [Ha _]; exact Ha. }
  rewrite Forall_forall in HF, Hok.
  set (g := fst (Main_setup file)) in *.
  set (p := Z.of_nat t mod CYCLE_LENGTH g) in *.
  split.
  - intros car bike Hcar Hbike Tc Tb [Gc Gb].
    destruct (HF car Hcar) as [_ Fc]; destruct (HF bike Hbike) as [Fb _].
    specialize (Fc Tc); specialize (Fb Tb).
    rewrite Gc in Fc; rewrite Gb in Fb.
    unfold car_phase, bike_phase in *.
    split_tests; simpl in *; try discriminate; lia.
  - intros Hred l Hl.
    destruct (HF l Hl) as [Fb Fc].
    unfold all_red_phase, car_phase, bike_phase in *.
    destruct (Hok l Hl) as [T | T];
      [rewrite (Fc T) | rewrite (Fb T)];
      split_tests; simpl; try reflexivity; lia.
Qed.

(** Tick 10 of the fallback run opens the first all-red phase. *)
Lemma lights_exclusive_witness :
  exists self,
    run_of Missing zero_draws 11 = Ok self /\
    forall l, In l (lanes self) -> green_light l = false.
Proof.
  eexists; split; [vm_compute; reflexivity |].
  apply (lights_exclusive Missing zero_draws 10).
  - vm_compute; reflexivity.
  - vm_compute; reflexivity.
  - vm_compute; reflexivity.
  - vm_compute; reflexivity.
  - left; vm_compute; split; [discriminate | reflexivity].
Defined.

Lemma fallback_lights (g : Globals) (p : Z) (self : Main) :
  map lane_type (lanes self)
    = [LaneType.CAR; LaneType.CAR; LaneType.BIKE; LaneType.BIKE] ->
  Forall (lights_follow g p) (lanes self) ->
  bike_lights self = [bike_phase g p; bike_phase g p] /\
  car_lights self = [car_phase g p; car_phase g p].
Proof.
  unfold bike_lights, car_lights, bikes, cars, is_bike, is_car.
  destruct (lanes self) as [| l1 [| l2 [| l3 [| l4 [| l5 ls]]]]];
    try discriminate.
  intros T F; injection T as T1 T2 T3 T4.
  repeat match goal with
         | H : Forall _ (_ :: _) |- _ => inversion H; clear H; subst
         end.
  repeat match goal with
         | H : lights_follow _ _ _ |- _ => destruct H
         end.
  simpl; rewrite T1, T2, T3, T4; simpl.
  split; f_equal; auto; f_equal; auto.
Qed.

(** The fallback setup meets what [run_ok] asks for. *)
Lemma fallback_run_ok (draws : Z -> nat -> Z) (n : nat) :
  exists self,
    run default_globals draws n (snd (Main_setup Missing)) = Ok self /\
    map lane_type (lanes self)
      = [LaneType.CAR; LaneType.CAR; LaneType.BIKE; LaneType.BIKE] /\
    map fst (df_rows (traffic_data self)) = map Z.of_nat (seq 0 n).
Proof.
  assert (H1 : CYCLE_LENGTH default_globals <> 0)
    by (vm_compute; intros E; discriminate E).
  assert (H2 : df_columns (traffic_data (snd (Main_setup Missing))) <> [])
    by (vm_compute; intros E; discriminate E).
  assert (H3 : length (df_columns (traffic_data (snd (Main_setup Missing))))
               = row_length (snd (Main_setup Missing)))
    by (vm_compute; reflexivity).
  assert (H4 : df_rows (traffic_data (snd (Main_setup Missing))) = [])
    by (vm_compute; reflexivity).
  destruct (run_ok default_globals draws _ H1 H2 H3 H4 n)
    as (self & Hrun & T & _ & Ix).
  exists self; split; [exact Hrun |]; split; [| exact Ix].
  rewrite T; vm_compute; reflexivity.
Qed.

(** Every tick of the fallback run is reached, with the lights of the
    timetable. *)
Lemma fallback_tick (draws : Z -> nat -> Z) (t : nat) :
  exists self,
    run_of Missing draws (S t) = Ok self /\
    bike_lights self =
      [bike_phase default_globals (Z.of_nat t mod 60);
       bike_phase default_globals (Z.of_nat t mod 60)] /\
    car_lights self =
      [car_phase default_globals (Z.of_nat t mod 60);
       car_phase default_globals (Z.of_nat t mod 60)].
Proof.
  destruct (fallback_run_ok draws (S t)) as (self & Hrun & T & _).
  exists self; split; [exact Hrun |].
  apply fallback_lights; [exact T |].
  apply (run_lights_follow default_globals) with (draws := draws)
    (self0 := snd (Main_setup Missing));
    [reflexivity | reflexivity | reflexivity | reflexivity | exact Hrun].
Qed.

(** C6. With the fallback configuration (bike green 10, all red 10, car
    green 30, cycle 60) the lights are: tick 0 Bike green, Car red; tick 10
    both red; tick 20 Bike red, Car green; tick 50 both red; and tick 60
    shows the lights of tick 0. *)
Theorem default_timetable (draws : Z -> nat -> Z) :
  (GREEN_BIKES (fst (Main_setup Missing)) = 10 /\
   RED_TIME_ALL (fst (Main_setup Missing)) = 10 /\
   GREEN_CARS (fst (Main_setup Missing)) = 30 /\
   CYCLE_LENGTH (fst (Main_setup Missing)) = 60) /\
  exists s0 s10 s20 s50 s60,
    (run_of Missing draws 1 = Ok s0 /\
     bike_lights s0 = [true; true] /\ car_lights s0 = [false; false]) /\
    (run_of Missing draws 11 = Ok s10 /\
     bike_lights s10 = [false; false] /\ car_lights s10 = [false; false]) /\
    (run_of Missing draws 21 = Ok s20 /\
     bike_lights s20 = [false; false] /\ car_lights s20 = [true; true]) /\
    (run_of Missing draws 51 = Ok s50 /\
     bike_lights s50 = [false; false] /\ car_lights s50 = [false; false]) /\
    (run_of Missing draws 61 = Ok s60 /\
     bike_lights s60 = bike_lights s0 /\ car_lights s60 = car_lights s0).
Proof.
  split; [repeat split; reflexivity |].
  destruct (fallback_tick draws 0) as (s0 & R0 & B0 & C0).
  destruct (fallback_tick draws 10) as (s10 & R10 & B10 & C10).
  destruct (fallback_tick draws 20) as (s20 & R20 & B20 & C20).
  destruct (fallback_tick draws 50) as (s50 & R50 & B50 & C50).
  destruct (fallback_tick draws 60) as (s60 & R60 & B60 & C60).
  exists s0, s10, s20, s50, s60.
  rewrite B0, C0, B10, C10, B20, C20, B50, C50, B60, C60.
  repeat split; assumption || reflexivity.
Qed.

(** C7. The light changes of tick [t] and of tick [t + CYCLE_LENGTH] are
    the same, on every lane list, and so are those of any two ticks a whole
    number of cycles apart. *)
Theorem lights_periodic (g : Globals) (t : Z) (ls : list Lane) :
  loop_lights g (t + CYCLE_LENGTH g) ls = loop_lights g t ls /\
  forall k, loop_lights g (t + k * CYCLE_LENGTH g) ls = loop_lights g t ls.
Proof.
  assert (H : forall k,
             loop_lights g (t + k * CYCLE_LENGTH g) ls = loop_lights g t ls).
  { intros k; unfold loop_lights, py_mod.
    destruct (CYCLE_LENGTH g =? 0); [reflexivity |].
    rewrite Z_mod_plus_full; reflexivity. }
  split; [| exact H].
  specialize (H 1); rewrite Z.mul_1_l in H; exact H.
Qed.

(** The fallback run goes through its 360 ticks. *)
Lemma fallback_init (draws : Z -> nat -> Z) :
  exists self,
    Main_init Missing draws = Ok (default_globals, self) /\
    map lane_type (lanes self)
      = [LaneType.CAR; LaneType.CAR; LaneType.BIKE; LaneType.BIKE] /\
    map business (lanes self)
      = [0x1.999999999999ap-2; 0x1.3333333333334p-2;
         0x1.999999999999ap-3; 0x1.999999999999ap-4]%float /\
    map fst (df_rows (traffic_data self)) = range 360.
Proof.
  destruct (fallback_run_ok draws (Z.to_nat 360)) as (self & Hrun & T & Ix).
  destruct (run_frame _ _ _ _ _ Hrun) as [_ B].
  exists self; split; [| split; [exact T | split; [| exact Ix]]].
  - rewrite Main_init_unfold.
    change (fst (Main_setup Missing)) with default_globals.
    rewrite loop_count_default; cbn [bind].
    unfold run_of; change (fst (Main_setup Missing)) with default_globals.
    rewrite Hrun; reflexivity.
  - rewrite B; vm_compute; reflexivity.
Qed.

(** C8. With a missing configuration file, or one that is not valid JSON,
    the run completes with the built-in values GREEN_CARS 30, GREEN_BIKES
    10, RED_TIME_ALL 10 and SIM_LENGTH 0.1, on two Car and two Bike lanes
    with the preset arrival rates, and leaves exactly 360 rows, labelled 0
    to 359. *)
Theorem fallback_run_completes (draws : Z -> nat -> Z) :
  exists g self,
    Main_init Missing draws = Ok (g, self) /\
    Main_init Malformed draws = Ok (g, self) /\
    GREEN_CARS g = 30 /\ GREEN_BIKES g = 10 /\ RED_TIME_ALL g = 10 /\
    SIM_LENGTH g = one_tenth /\
    map lane_type (lanes self)
      = [LaneType.CAR; LaneType.CAR; LaneType.BIKE; LaneType.BIKE] /\
    map business (lanes self)
      = [0x1.999999999999ap-2; 0x1.3333333333334p-2;
         0x1.999999999999ap-3; 0x1.999999999999ap-4]%float /\
    length (df_rows (traffic_data self)) = 360%nat /\
    map fst (df_rows (traffic_data self)) = range 360.
Proof.
  destruct (fallback_init draws) as (self & Hi & T & B & Ix).
  exists default_globals, self.
  split; [exact Hi |]; split; [exact Hi |].
  repeat (split; [reflexivity |]).
  split; [exact T |]; split; [exact B |]; split; [| exact Ix].
  rewrite <- (length_map fst), Ix; reflexivity.
Qed.

(** C9. A call of [set_lanes] changes the light of the lanes of its class
    and nothing else; the light changes of a tick leave every class, arrival
    rate and queue as they are, touch only Bike lanes at the end of bike
    green and only Car lanes at the two ends of car green, and change no
    light at an offset that is not a boundary; a queue update changes
    neither light, class nor arrival rate. *)
Theorem frame_conditions :
  (forall lt st ls,
      Forall2 (fun l l' =>
                 same_but_light l l' /\
                 green_light l' =
                   if lane_type l =? lt then st else green_light l)
              ls (set_lanes lt st ls)) /\
  (forall g ticks ls l',
      In l' (switch_lights g ticks ls) ->
      exists l,
        In l ls /\ same_but_light l l' /\
        (ticks <> 0 -> ticks = GREEN_BIKES g ->
         lane_type l <> LaneType.BIKE -> green_light l' = green_light l) /\
        (ticks <> 0 -> ticks <> GREEN_BIKES g ->
         lane_type l <> LaneType.CAR -> green_light l' = green_light l)) /\
  (forall g ticks ls,
      ticks <> 0 -> ticks <> GREEN_BIKES g ->
      ticks <> GREEN_BIKES g + RED_TIME_ALL g ->
      ticks <> GREEN_BIKES g + RED_TIME_ALL g + GREEN_CARS g ->
      switch_lights g ticks ls = ls) /\
  (forall a l, same_but_queue l (update_vehicle_number a l)) /\
  (forall draw k ls, Forall2 same_but_queue ls (update_lanes draw k ls)).
Proof.
  split; [exact set_lanes_spec |].
  split; [| split; [| split]].
  - intros g ticks ls l' Hin; unfold switch_lights in Hin.
    destruct (Z.eqb_spec ticks 0) as [E0 | E0].
    { apply set_lanes_In in Hin; destruct Hin as (l1 & H1 & (T2 & B2 & Q2) & _).
      apply set_lanes_In in H1; destruct H1 as (l & Hl & (T1 & B1 & Q1) & _).
      exists l; split; [exact Hl |]; split.
      - unfold same_but_light; repeat split; congruence.
      - split; intros; contradiction. }
    destruct (Z.eqb_spec ticks (GREEN_BIKES g)) as [E1 | E1].
    { apply set_lanes_In in Hin; destruct Hin as (l & Hl & F & G).
      exists l; split; [exact Hl |]; split; [exact F |]; split.
      - intros _ _ Hn; rewrite G.
        destruct (Z.eqb_spec (lane_type l) LaneType.BIKE); tauto.
      - intros; contradiction. }
    destruct (Z.eqb_spec ticks (GREEN_BIKES g + RED_TIME_ALL g)) as [E2 | E2].
    { apply set_lanes_In in Hin; destruct Hin as (l & Hl & F & G).
      exists l; split; [exact Hl |]; split; [exact F |]; split.
      - intros; contradiction.
      - intros _ _ Hn; rewrite G.
        destruct (Z.eqb_spec (lane_type l) LaneType.CAR); tauto. }
    destruct (Z.eqb_spec ticks
                (GREEN_BIKES g + RED_TIME_ALL g + GREEN_CARS g)) as [E3 | E3].
    { apply set_lanes_In in Hin; destruct Hin as (l & Hl & F & G).
      exists l; split; [exact Hl |]; split; [exact F |]; split.
      - intros; contradiction.
      - intros _ _ Hn; rewrite G.
        destruct (Z.eqb_spec (lane_type l) LaneType.CAR); tauto. }
    exists l'; unfold same_but_light; repeat split; auto.
  - intros g ticks ls H0 H1 H2 H3; unfold switch_lights.
    split_tests; try contradiction; reflexivity.
  - exact update_vehicle_number_frame.
  - intros draw k ls; apply update_lanes_frame.
Qed.

(** Offset 5 of the default cycle is no boundary. *)
Lemma frame_conditions_witness :
  switch_lights default_globals 5 [green_bike_lane] = [green_bike_lane].
Proof.
  apply (proj1 (proj2 (proj2 frame_conditions)) default_globals 5);
    simpl; lia.
Defined.

(** C10. A lane descriptor gives a Car lane exactly when its type is the
    string car; every other type string, such as Car, CAR, bike or truck,
    gives a Bike lane, which leaves two at a time, and [parse] raises
    nothing for it. *)
Theorem unknown_type_is_bike
  (gc gb r : option Z) (sl : option float) (descs : list LaneDesc)
  (g : Globals) (d : LaneDesc) :
  (lane_type (lane_of_desc d) = LaneType.CAR <-> ld_type d = "car"%string) /\
  (lane_type (lane_of_desc d) = LaneType.BIKE <-> ld_type d <> "car"%string) /\
  LaneType.BIKE = 2 /\
  map lane_type (fst (parse (Parsed (mkConfig gc gb r sl (Some descs))) g))
    = map (fun d => if string_dec (ld_type d) "car"
                    then LaneType.CAR else LaneType.BIKE) descs /\
  map (fun ty => lane_type (lane_of_desc (mkLaneDesc ty one_tenth)))
      ["car"; "Car"; "CAR"; "bike"; "Bike"; "truck"; ""]%string
    = [LaneType.CAR; LaneType.BIKE; LaneType.BIKE; LaneType.BIKE;
       LaneType.BIKE; LaneType.BIKE; LaneType.BIKE] /\
  vehicle_num
    (update_vehicle_number 0
       (set_green_light true
          (set_vehicle_num 5 (lane_of_desc (mkLaneDesc "truck" one_tenth)))))
    = 3.
Proof.
  unfold lane_of_desc; simpl.
  split; [| split; [| split; [reflexivity
                             | split; [| split; reflexivity]]]].
  - destruct (String.eqb_spec (ld_type d) "car"); split; intros H;
      auto; try discriminate; contradiction.
  - destruct (String.eqb_spec (ld_type d) "car"); split; intros H;
      auto; try discriminate; contradiction.
  - rewrite map_map; apply map_ext; intros x; simpl.
    destruct (string_dec (ld_type x) "car") as [E | E].
    + rewrite E; reflexivity.
    + apply String.eqb_neq in E; rewrite E; reflexivity.
Qed.

(** ** Further properties of the queue update *)

Lemma update_vehicle_number_closed (a : Z) (l : Lane) :
  lane_ok l -> 0 <= vehicle_num l + a ->
  vehicle_num (update_vehicle_number a l) =
    vehicle_num l + a -
    (if green_light l then Z.min (lane_type l) (vehicle_num l + a) else 0).
Proof.
  intros Hty Hq; unfold update_vehicle_number; simpl.
  destruct (green_light l); simpl; [| lia].
  destruct Hty as [T | T]; rewrite T;
    unfold LaneType.CAR, LaneType.BIKE; simpl;
    split_tests; simpl; lia.
Qed.

(** X1. On a Car or Bike lane whose queue with the arrivals is not negative,
    a queue update removes nothing on red and, on green, the lane's rate (1
    or 2) or the whole queue when that is shorter. *)
Theorem departure_closed_form (a : Z) (l : Lane) :
  lane_ok l -> 0 <= vehicle_num l + a ->
  departed a l =
    (if green_light l then Z.min (lane_type l) (vehicle_num l + a) else 0).
Proof.
  intros Hty Hq; unfold departed.
  rewrite (update_vehicle_number_closed a l Hty Hq).
  destruct (green_light l); lia.
Qed.

(** One bike waiting on green: the one bike leaves. *)
Lemma departure_closed_form_witness : departed 0 green_bike_lane_1 = 1.
Proof.
  apply (departure_closed_form 0 green_bike_lane_1).
  - right; reflexivity.
  - simpl; lia.
Defined.

Lemma iter_update_frame (n : nat) (l : Lane) :
  same_but_queue l (Nat.iter n (update_vehicle_number 0) l).
Proof.
  induction n as [| n IH]; simpl; [unfold same_but_queue; auto |].
  destruct IH as (T & B & G).
  destruct (update_vehicle_number_frame 0
              (Nat.iter n (update_vehicle_number 0) l)) as (T' & B' & G').
  unfold same_but_queue; repeat split; congruence.
Qed.

(** X2. A green Car or Bike lane that gets no arrival drains at its rate:
    after [n] updates its queue is the start queue less [n] times the rate,
    and 0 once that is negative. *)
Theorem green_lane_drains (n : nat) (l : Lane) :
  lane_ok l -> green_light l = true -> 0 <= vehicle_num l ->
  vehicle_num (Nat.iter n (update_vehicle_number 0) l) =
    Z.max 0 (vehicle_num l - Z.of_nat n * lane_type l).
Proof.
  intros Hty Hg Hq; induction n as [| n IH].
  - simpl; lia.
  - rewrite Nat.iter_succ.
    set (m := Nat.iter n (update_vehicle_number 0) l) in *.
    destruct (iter_update_frame n l) as (T & _ & G); fold m in T, G.
    assert (Hm : lane_ok m) by (unfold lane_ok in *; rewrite T; exact Hty).
    assert (Hd := update_vehicle_number_closed 0 m Hm ltac:(rewrite IH; lia)).
    rewrite G, Hg, T in Hd.
    rewrite Nat2Z.inj_succ; unfold Z.succ.
    destruct Hty as [E | E]; rewrite E in *;
      unfold LaneType.CAR, LaneType.BIKE in *; lia.
Qed.

(** Five cars on green are gone after five updates. *)
Lemma green_lane_drains_witness :
  vehicle_num (Nat.iter 5 (update_vehicle_number 0) green_car_lane_5) = 0.
Proof.
  apply (green_lane_drains 5 green_car_lane_5).
  - left; reflexivity.
  - reflexivity.
  - simpl; lia.
Defined.

(** ** Further properties of the traffic light *)

(** X3. Two calls of [set_lanes] for different classes can be swapped, and
    of two calls for the same class the later one wins. *)
Theorem set_lanes_compose (lt lt' : Z) (st st' : bool) (ls : list Lane) :
  lt <> lt' ->
  set_lanes lt st (set_lanes lt' st' ls)
    = set_lanes lt' st' (set_lanes lt st ls) /\
  set_lanes lt st (set_lanes lt st' ls) = set_lanes lt st ls.
Proof.
  intros Hne; unfold set_lanes; rewrite !map_map; split; apply map_ext;
    intros l;
    destruct (Z.eqb_spec (lane_type l) lt) as [E | E];
    destruct (Z.eqb_spec (lane_type l) lt') as [E' | E']; simpl;
    try (exfalso; congruence);
    repeat match goal with
           | |- context [Z.eqb ?x ?y] => destruct (Z.eqb_spec x y)
           end;
    try reflexivity; try contradiction.
Qed.

(** The two calls of offset 0, in the other order. *)
Lemma set_lanes_compose_witness :
  set_lanes LaneType.CAR false (set_lanes LaneType.BIKE true [green_car_lane_5])
    = set_lanes LaneType.BIKE true
        (set_lanes LaneType.CAR false [green_car_lane_5]).
Proof.
  apply (proj1 (set_lanes_compose LaneType.CAR LaneType.BIKE false true
                  [green_car_lane_5] ltac:(discriminate))).
Defined.

(** ** Further properties of setup *)

Lemma parse_fresh (file : ConfigFile) (g : Globals) :
  Forall fresh_lane (fst (parse file g)).
Proof.
  destruct file as [| | j]; simpl; try constructor.
  destruct (j_lanes j) as [descs |]; simpl; [| constructor].
  apply Forall_forall; intros l Hin; apply in_map_iff in Hin.
  destruct Hin as (d & <- & _).
  unfold fresh_lane; repeat split; apply lane_of_desc_queue_ok.
Qed.

Lemma Main_setup_state (file : ConfigFile) :
  snd (Main_setup file) =
  match fst (parse file default_globals) with
  | [] =>
      {| lanes := map default_lane (range lane_count);
         columns := ["Bike lanes"; "Bikes 1"; "Bikes 2";
                     "Car lanes"; "Cars 1"; "Cars 2"]%string;
         traffic_data :=
           {| df_columns := ["Bike lanes"; "Bikes 1"; "Bikes 2";
                             "Car lanes"; "Cars 1"; "Cars 2"]%string;
              df_rows := [] |} |}
  | l :: ls =>
      let cols :=
        ["bikelight"%string]
          ++ map (fun i => ("Bikes " ++ str (i + 1))%string)
                 (seq 0 (length (filter is_bike (l :: ls))))
          ++ ["carlight"%string]
          ++ map (fun i => ("Cars " ++ str (i + 1))%string)
                 (seq 0 (length (filter is_car (l :: ls)))) in
      {| lanes := l :: ls;
         columns := cols;
         traffic_data := {| df_columns := cols; df_rows := [] |} |}
  end.
Proof.
  unfold Main_setup; destruct (parse file default_globals) as [parsed g].
  destruct parsed; reflexivity.
Qed.

Lemma classes_partition (ls : list Lane) :
  Forall lane_ok ls ->
  (length (filter is_bike ls) + length (filter is_car ls))%nat = length ls.
Proof.
  induction 1 as [| l ls Hl _ IH]; simpl; [reflexivity |].
  unfold is_bike, is_car in *.
  destruct Hl as [E | E]; rewrite E; simpl; lia.
Qed.

Lemma Main_setup_fresh (file : ConfigFile) :
  Forall fresh_lane (lanes (snd (Main_setup file))).
Proof.
  pose proof (parse_fresh file default_globals) as Hf.
  rewrite (Main_setup_state file).
  destruct (fst (parse file default_globals)) as [| l ls]; [| exact Hf].
  cbn [lanes]; rewrite default_lanes_eq.
  repeat (apply Forall_cons || apply Forall_nil);
    unfold fresh_lane, lane_ok; simpl; auto.
Qed.

Lemma Main_setup_table (file : ConfigFile) :
  traffic_data (snd (Main_setup file)) =
    {| df_columns := columns (snd (Main_setup file)); df_rows := [] |}.
Proof.
  rewrite (Main_setup_state file).
  destruct (fst (parse file default_globals)); reflexivity.
Qed.

Lemma Main_setup_columns (file : ConfigFile) :
  length (columns (snd (Main_setup file))) =
    (2 + length (lanes (snd (Main_setup file))))%nat.
Proof.
  pose proof (parse_fresh file default_globals) as Hf.
  rewrite (Main_setup_state file).
  destruct (fst (parse file default_globals)) as [| l ls]; [reflexivity |].
  cbv zeta; cbn [lanes columns].
  rewrite !length_app, !length_map, !length_seq.
  rewrite <- (classes_partition (l :: ls)); [cbn [length]; lia |].
  eapply Forall_impl; [| exact Hf]; intros a (_ & _ & Ha); exact Ha.
Qed.

(** X4. Whatever the configuration file, setup gives at least one lane;
    every lane is a red Car or Bike lane with an empty queue; the cycle
    length is the sum of the two greens and twice the all-red time; the
    table is empty and has two light columns and one column per lane. *)
Theorem setup_invariants (file : ConfigFile) :
  lanes (snd (Main_setup file)) <> [] /\
  Forall fresh_lane (lanes (snd (Main_setup file))) /\
  CYCLE_LENGTH (fst (Main_setup file)) =
    GREEN_CARS (fst (Main_setup file)) + GREEN_BIKES (fst (Main_setup file))
    + 2 * RED_TIME_ALL (fst (Main_setup file)) /\
  traffic_data (snd (Main_setup file)) =
    {| df_columns := columns (snd (Main_setup file)); df_rows := [] |} /\
  length (columns (snd (Main_setup file))) =
    (2 + length (lanes (snd (Main_setup file))))%nat.
Proof.
  split; [| split; [apply Main_setup_fresh | split; [| split]]].
  - rewrite (Main_setup_state file).
    destruct (fst (parse file default_globals)); cbn [lanes];
      [rewrite default_lanes_eq |]; discriminate.
  - apply (Main_setup_cycle file).
  - apply Main_setup_table.
  - apply Main_setup_columns.
Qed.

(** X5. When the file has no lanes key, or an empty lanes list, the run uses
    the four fallback lanes and the six fallback columns, with the durations
    and the length the file gives. *)
Theorem fallback_keeps_file_durations (j : Config) :
  j_lanes j = None \/ j_lanes j = Some [] ->
  lanes (snd (Main_setup (Parsed j))) = map default_lane (range lane_count) /\
  length (columns (snd (Main_setup (Parsed j)))) = 6%nat /\
  GREEN_CARS (fst (Main_setup (Parsed j))) = get_or (j_GREEN_CARS j) 30 /\
  GREEN_BIKES (fst (Main_setup (Parsed j))) = get_or (j_GREEN_BIKES j) 10 /\
  RED_TIME_ALL (fst (Main_setup (Parsed j))) = get_or (j_RED_TIME_ALL j) 10 /\
  SIM_LENGTH (fst (Main_setup (Parsed j)))
    = get_or (j_SIM_LENGTH j) one_tenth.
Proof.
  intros H; rewrite Main_setup_state, Main_setup_globals.
  destruct j as [gc gb r sl ls]; simpl in H.
  destruct H as [-> | ->]; simpl; repeat split; reflexivity.
Qed.

(** Three durations of zero and no lanes key. *)
Lemma fallback_keeps_file_durations_witness :
  lanes (snd (Main_setup (Parsed zero_cycle_config)))
    = map default_lane (range lane_count) /\
  GREEN_CARS (fst (Main_setup (Parsed zero_cycle_config))) = 0.
Proof.
  destruct (fallback_keeps_file_durations zero_cycle_config
              (or_introl eq_refl)) as (L & _ & G & _).
  split; [exact L | exact G].
Defined.

(** ** Further properties of the run *)















(** X10. A run neither adds nor removes a lane, and changes no lane's class
    or arrival rate, nor the column names. *)
Theorem run_keeps_lanes (g : Globals) (draws : Z -> nat -> Z) (n : nat)
  (self0 self : Main) :
  run g draws n self0 = Ok self ->
  length (lanes self) = length (lanes self0) /\
  map lane_type (lanes self) = map lane_type (lanes self0) /\
  map business (lanes self) = map business (lanes self0) /\
  columns self = columns self0.
Proof.
  revert self; induction n as [| n IH]; intros self H; cbn [run] in H.
  - injection H as <-; auto.
  - destruct (run g draws n self0) as [prev | e]; unfold bind in H;
      [| discriminate].
    destruct (IH prev eq_refl) as (L & T & B & C).
    apply loop_inv in H; destruct H as (_ & Hl & Hc & _).
    assert (T' : map lane_type (lanes self) = map lane_type (lanes self0))
      by (rewrite Hl, update_lanes_types, switch_lights_types; exact T).
    split; [| split; [exact T' | split; [| congruence]]].
    + rewrite <- (length_map lane_type), T', length_map; reflexivity.
    + rewrite Hl, update_lanes_business, switch_lights_business; exact B.
Qed.

(** Three ticks of the fallback run keep its four lanes. *)
Lemma run_keeps_lanes_witness :
  exists self,
    run_of Missing zero_draws 3 = Ok self /\
    length (lanes self) = 4%nat.
Proof.
  eexists; split; [vm_compute; reflexivity |].
  apply (run_keeps_lanes default_globals zero_draws 3
           (snd (Main_setup Missing))).
  vm_compute; reflexivity.
Defined.

(** ** Further properties of the lights during a run *)

Lemma lights_follow_closed (g : Globals) (p : Z) (ls : list Lane) :
  Forall lane_ok ls -> Forall (lights_follow g p) ls ->
  map green_light ls = map (light_of g p) (map lane_type ls).
Proof.
  induction 1 as [| l ls Hl _ IH]; intros HF; simpl; [reflexivity |].
  inversion HF as [| ? ? [Fb Fc] HF']; subst.
  rewrite (IH HF'); f_equal; unfold light_of.
  destruct Hl as [E | E].
  - rewrite (Fc E), E; reflexivity.
  - rewrite (Fb E), E; reflexivity.
Qed.

(** What a run with three strictly positive durations shows after the
    tick [t]. *)
Lemma run_of_lights_follow (file : ConfigFile) (draws : Z -> nat -> Z)
  (t : nat) (self : Main) :
  0 < GREEN_BIKES (fst (Main_setup file)) ->
  0 < RED_TIME_ALL (fst (Main_setup file)) ->
  0 < GREEN_CARS (fst (Main_setup file)) ->
  run_of file draws (S t) = Ok self ->
  map lane_type (lanes self) = map lane_type (lanes (snd (Main_setup file))) /\
  Forall lane_ok (lanes self) /\
  Forall (lights_follow (fst (Main_setup file))
            (Z.of_nat t mod CYCLE_LENGTH (fst (Main_setup file))))
         (lanes self).
Proof.
  intros Hb Hr Hc Hrun.
  pose proof (Main_setup_cycle file) as Hcy; cbv zeta in Hcy.
  destruct (run_frame _ _ _ _ _ Hrun) as [T _].
  split; [exact T |]; split.
  - apply (lane_ok_types _ _ T).
    eapply Forall_impl; [| apply Main_setup_queue_ok].
    intros a [Ha _]; exact Ha.
  - exact (run_lights_follow _ Hb Hr Hc Hcy draws _ t self Hrun).
Qed.

(** X11. With three strictly positive durations, the lights after the tick
    [t] are those of the timetable at [t mod CYCLE_LENGTH], lane by lane:
    a Bike lane is green exactly before GREEN_BIKES, a Car lane exactly from
    GREEN_BIKES + RED_TIME_ALL up to, and not at, that plus GREEN_CARS. *)
Theorem lights_closed_form (file : ConfigFile) (draws : Z -> nat -> Z)
  (t : nat) (self : Main) :
  0 < GREEN_BIKES (fst (Main_setup file)) ->
  0 < RED_TIME_ALL (fst (Main_setup file)) ->
  0 < GREEN_CARS (fst (Main_setup file)) ->
  run_of file draws (S t) = Ok self ->
  map green_light (lanes self) =
    map (light_of (fst (Main_setup file))
           (Z.of_nat t mod CYCLE_LENGTH (fst (Main_setup file))))
        (map lane_type (lanes (snd (Main_setup file)))).
Proof.
  intros Hb Hr Hc Hrun.
  destruct (run_of_lights_follow file draws t self Hb Hr Hc Hrun)
    as (T & Hok & HF).
  rewrite <- T; apply lights_follow_closed; assumption.
Qed.

(** Tick 25 of the fallback run: cars green, bikes red. *)
Lemma lights_closed_form_witness :
  exists self,
    run_of Missing zero_draws 26 = Ok self /\
    map green_light (lanes self) = [true; true; false; false].
Proof.
  eexists; split; [vm_compute; reflexivity |].
  apply (lights_closed_form Missing zero_draws 25); vm_compute; reflexivity.
Defined.

Lemma update_lanes_In (draw : nat -> Z) (ls : list Lane) :
  forall k l', In l' (update_lanes draw k ls) ->
               exists l, In l ls /\ same_but_queue l l'.
Proof.
  induction ls as [| l ls IH]; intros k l' Hin; simpl in Hin; [contradiction |].
  destruct Hin as [<- | Hin].
  - exists l; split; [left; reflexivity | apply update_vehicle_number_frame].
  - destruct (IH _ _ Hin) as (l0 & H0 & F); exists l0; split; [right |]; auto.
Qed.

Lemma switch_lights_bikes_stay (g : Globals) (p : Z) (ls : list Lane) :
  GREEN_BIKES g = 0 ->
  (forall l, In l ls -> lane_type l = LaneType.BIKE -> green_light l = true) ->
  forall l', In l' (switch_lights g p ls) ->
             lane_type l' = LaneType.BIKE -> green_light l' = true.
Proof.
  intros Hz H l' Hin Tb; unfold switch_lights in Hin; rewrite Hz in Hin.
  destruct (Z.eqb_spec p 0) as [E | E].
  - apply set_lanes_In in Hin; destruct Hin as (l & _ & (T & _) & G).
    rewrite G, <- T, Tb; reflexivity.
  - simpl in Hin.
    assert (Hcar : forall st, In l' (set_lanes LaneType.CAR st ls) ->
                              green_light l' = true).
    { intros st Hs; apply set_lanes_In in Hs.
      destruct Hs as (l & Hl & (T & _) & G).
      rewrite G, <- T, Tb; simpl; apply H; congruence. }
    destruct (p =? RED_TIME_ALL g); [eapply Hcar; exact Hin |].
    destruct (p =? RED_TIME_ALL g + GREEN_CARS g); [eapply Hcar; exact Hin |].
    now apply H.
Qed.

(** X12. With GREEN_BIKES equal to 0 the change of offset 0 hides the one
    that turns the bikes red: after every tick every Bike lane is green, in
    the all-red phases and during car green too. *)
Theorem zero_bike_green_never_red (g : Globals) (draws : Z -> nat -> Z)
  (t : nat) (self0 self : Main) :
  GREEN_BIKES g = 0 ->
  run g draws (S t) self0 = Ok self ->
  forall l, In l (lanes self) ->
            lane_type l = LaneType.BIKE -> green_light l = true.
Proof.
  intros Hz; revert self; induction t as [| t IH]; intros self H l Hin Tb.
  - cbn [run bind] in H; apply loop_inv in H; destruct H as (Hc & Hl & _).
    rewrite Hl in Hin; apply update_lanes_In in Hin.
    destruct Hin as (l1 & H1 & (T & _ & G)).
    rewrite G; rewrite T in Tb.
    change (Z.of_nat 0) with 0 in H1; rewrite Z.mod_0_l in H1 by exact Hc.
    unfold switch_lights in H1; simpl in H1.
    apply set_lanes_In in H1; destruct H1 as (l0 & _ & (T0 & _) & G0).
    rewrite G0, <- T0, Tb; reflexivity.
  - change (run g draws (S (S t)) self0)
      with (self' <- run g draws (S t) self0 ;;
            loop g draws (Z.of_nat (S t)) self') in H.
    destruct (run g draws (S t) self0) as [prev | e]; unfold bind in H;
      [| discriminate].
    apply loop_inv in H; destruct H as (_ & Hl & _).
    rewrite Hl in Hin; apply update_lanes_In in Hin.
    destruct Hin as (l1 & H1 & (T & _ & G)).
    rewrite G; rewrite T in Tb.
    eapply switch_lights_bikes_stay;
      [exact Hz | apply (IH prev eq_refl) | exact H1 | exact Tb].
Qed.

(** Tick 25 with GREEN_BIKES 0: the cars are green and so are the bikes. *)
Lemma zero_bike_green_never_red_witness :
  exists self,
    run_of (Parsed no_bike_green_config) zero_draws 26 = Ok self /\
    forall l, In l (lanes self) ->
              lane_type l = LaneType.BIKE -> green_light l = true.
Proof.
  eexists; split; [vm_compute; reflexivity |].
  apply (zero_bike_green_never_red
           (fst (Main_setup (Parsed no_bike_green_config)))
           zero_draws 25
           (snd (Main_setup (Parsed no_bike_green_config)))).
  - reflexivity.
  - vm_compute; reflexivity.
Defined.

Lemma switch_lights_cars_stay (g : Globals) (p : Z) (ls : list Lane) :
  RED_TIME_ALL g = 0 ->
  (forall l, In l ls -> lane_type l = LaneType.CAR -> green_light l = false) ->
  forall l', In l' (switch_lights g p ls) ->
             lane_type l' = LaneType.CAR -> green_light l' = false.
Proof.
  intros Hz H l' Hin Tc; unfold switch_lights in Hin; rewrite Hz in Hin.
  rewrite Z.add_0_r in Hin.
  destruct (Z.eqb_spec p 0) as [E | E].
  - apply set_lanes_In in Hin; destruct Hin as (l1 & H1 & (T & _) & G).
    apply set_lanes_In in H1; destruct H1 as (l & _ & (T1 & _) & G1).
    rewrite G, <- T, Tc; simpl.
    rewrite G1, <- T1, <- T, Tc; reflexivity.
  - destruct (Z.eqb_spec p (GREEN_BIKES g)) as [Eb | Eb].
    + apply set_lanes_In in Hin; destruct Hin as (l & Hl & (T & _) & G).
      rewrite G, <- T, Tc; simpl; apply H; congruence.
    + destruct (p =? GREEN_BIKES g + GREEN_CARS g); [| now apply H].
      apply set_lanes_In in Hin; destruct Hin as (l & Hl & (T & _) & G).
      rewrite G, <- T, Tc; reflexivity.
Qed.

(** X13. With RED_TIME_ALL equal to 0 the change that turns the bikes red
    hides the one that turns the cars green: in every run, after every
    tick, every Car lane is red. *)
Theorem zero_all_red_never_green (file : ConfigFile) (draws : Z -> nat -> Z)
  (n : nat) (self : Main) :
  RED_TIME_ALL (fst (Main_setup file)) = 0 ->
  run_of file draws n = Ok self ->
  forall l, In l (lanes self) ->
            lane_type l = LaneType.CAR -> green_light l = false.
Proof.
  intros Hz; unfold run_of; revert self.
  induction n as [| n IH]; intros self H l Hin Tc; cbn [run] in H.
  - injection H as <-.
    pose proof (Main_setup_fresh file) as Hf.
    rewrite Forall_forall in Hf; apply (Hf l Hin).
  - destruct (run _ draws n _) as [prev | e]; unfold bind in H;
      [| discriminate].
    apply loop_inv in H; destruct H as (_ & Hl & _).
    rewrite Hl in Hin; apply update_lanes_In in Hin.
    destruct Hin as (l1 & H1 & (T & _ & G)).
    rewrite G; rewrite T in Tc.
    eapply switch_lights_cars_stay;
      [exact Hz | apply (IH prev eq_refl) | exact H1 | exact Tc].
Qed.

(** Tick 25 with RED_TIME_ALL 0, inside what should be car green. *)
Lemma zero_all_red_never_green_witness :
  exists self,
    run_of (Parsed no_all_red_config) zero_draws 26 = Ok self /\
    forall l, In l (lanes self) ->
              lane_type l = LaneType.CAR -> green_light l = false.
Proof.
  eexists; split; [vm_compute; reflexivity |].
  apply (zero_all_red_never_green (Parsed no_all_red_config) zero_draws 26).
  - reflexivity.
  - vm_compute; reflexivity.
Defined.

(** X14. With three strictly positive durations, a run repeats its lights
    every cycle: the lights after the tick [t] and after the tick [t] plus
    [k] cycle lengths are the same, lane by lane. *)
Theorem lights_repeat (file : ConfigFile) (draws : Z -> nat -> Z)
  (t k : nat) (self self' : Main) :
  0 < GREEN_BIKES (fst (Main_setup file)) ->
  0 < RED_TIME_ALL (fst (Main_setup file)) ->
  0 < GREEN_CARS (fst (Main_setup file)) ->
  run_of file draws (S t) = Ok self ->
  run_of file draws
    (S (t + k * Z.to_nat (CYCLE_LENGTH (fst (Main_setup file))))) = Ok self' ->
  map green_light (lanes self') = map green_light (lanes self).
Proof.
  intros Hb Hr Hc Hrun Hrun'.
  destruct (run_of_lights_follow file draws _ self Hb Hr Hc Hrun)
    as (T & Hok & HF).
  destruct (run_of_lights_follow file draws _ self' Hb Hr Hc Hrun')
    as (T' & Hok' & HF').
  rewrite (lights_follow_closed _ _ _ Hok HF).
  rewrite (lights_follow_closed _ _ _ Hok' HF').
  rewrite T, T'; f_equal; f_equal.
  pose proof (Main_setup_cycle file) as Hcy; cbv zeta in Hcy.
  rewrite Nat2Z.inj_add, Nat2Z.inj_mul, Z2Nat.id by lia.
  apply Z_mod_plus_full.
Qed.

(** Ticks 5 and 65 of the fallback run. *)
Lemma lights_repeat_witness :
  exists self self',
    run_of Missing zero_draws 6 = Ok self /\
    run_of Missing zero_draws 66 = Ok self' /\
    map green_light (lanes self') = map green_light (lanes self).
Proof.
  eexists; eexists; split; [vm_compute; reflexivity |].
  split; [vm_compute; reflexivity |].
  apply (lights_repeat Missing zero_draws 5 1); vm_compute; reflexivity.
Defined.


